(** * Parallel API dashboard (src/app.py): a shallow embedding.

    The script fetches three JSON APIs through a memoised [fetch_api_data],
    wraps each fetch in [fetch_with_latency], turns each payload into a chart
    in [process_data], and renders the slots in [main] in the order the
    futures complete.  Python values are [pyval]; exceptions are [py_exn] and
    code that may raise lives in the [res] error monad.  Wall-clock readings
    ([time.time()]) are explicit arguments or an explicit clock in the world
    state. *)

From Stdlib Require Import String Ascii List QArith Qabs Bool Arith Sorting.Sorted Sorting.Permutation Lia.
Import ListNotations.
Open Scope string_scope.
Set Warnings "-register-all".

(** Strict comparison of rationals, as a boolean. *)
Definition Qlt_bool (a b : Q) : bool := negb (Qle_bool b a).

(** ** Python values *)

(** A JSON payload as Python holds it after [response.json()]: [None], bools,
    numbers (ints and floats), strings, lists and dicts (insertion order is
    kept, as in a Python dict).  [PTimestamp] is a pandas [Timestamp] made by
    [pd.to_datetime(.., unit="ms")], held as its millisecond value. *)
Inductive pyval : Type :=
| PNone
| PBool (b : bool)
| PNum (q : Q)
| PStr (s : string)
| PList (xs : list pyval)
| PDict (kvs : list (string * pyval))
| PTimestamp (ms : Q).

Fixpoint pyval_eqb (a b : pyval) : bool :=
  match a, b with
  | PNone, PNone => true
  | PBool x, PBool y => Bool.eqb x y
  | PNum x, PNum y => Qeq_bool x y
  | PStr x, PStr y => String.eqb x y
  | PList xs, PList ys =>
      (fix go (xs ys : list pyval) : bool :=
         match xs, ys with
         | [], [] => true
         | x :: xs', y :: ys' => pyval_eqb x y && go xs' ys'
         | _, _ => false
         end) xs ys
  | PDict xs, PDict ys =>
      (fix go (xs ys : list (string * pyval)) : bool :=
         match xs, ys with
         | [], [] => true
         | (k, x) :: xs', (k', y) :: ys' =>
             String.eqb k k' && pyval_eqb x y && go xs' ys'
         | _, _ => false
         end) xs ys
  | PTimestamp x, PTimestamp y => Qeq_bool x y
  | _, _ => false
  end.

(** Python's type name, as it appears in exception messages. *)
Definition type_name (v : pyval) : string :=
  match v with
  | PNone => "NoneType"
  | PBool _ => "bool"
  | PNum _ => "float"
  | PStr _ => "str"
  | PList _ => "list"
  | PDict _ => "dict"
  | PTimestamp _ => "Timestamp"
  end.

(** Dict lookup: the first binding of the key (a Python dict has one). *)
Fixpoint dict_lookup (k : string) (kvs : list (string * pyval)) : option pyval :=
  match kvs with
  | [] => None
  | (k', v) :: rest => if String.eqb k k' then Some v else dict_lookup k rest
  end.

(** ** Exceptions and the error monad *)

(** The exceptions the code can meet ([RequestException] stands for the
    exceptions of [requests]: connection errors, [HTTPError] and the JSON
    decoding error of [response.json()]); all derive from [Exception], so the
    [except Exception] clauses of the source catch every one of them. *)
Inductive py_exn : Type :=
| KeyError (key : string)
| TypeError (msg : string)
| ValueError (msg : string)
| AttributeError (msg : string)
| UnboundLocalError (var : string)
| OverflowError (msg : string)
| RequestException (msg : string).

(** [str(e)].  For a [KeyError] Python prints the repr of the key. *)
Definition exn_str (e : py_exn) : string :=
  match e with
  | KeyError k => "'" ++ k ++ "'"
  | TypeError m => m
  | ValueError m => m
  | AttributeError m => m
  | RequestException m => m
  | OverflowError m => m
  | UnboundLocalError v =>
      "cannot access local variable '" ++ v
        ++ "' where it is not associated with a value"
  end.

Inductive res (A : Type) : Type :=
| Ok (a : A)
| Raise (e : py_exn).
Arguments Ok {A} a.
Arguments Raise {A} e.

Definition res_bind {A B} (m : res A) (f : A -> res B) : res B :=
  match m with
  | Ok a => f a
  | Raise e => Raise e
  end.

Notation "x <- m ;; k" := (res_bind m (fun x => k))
  (at level 61, m at next level, right associativity).

Fixpoint res_map {A B} (f : A -> res B) (xs : list A) : res (list B) :=
  match xs with
  | [] => Ok []
  | x :: xs' => y <- f x ;; ys <- res_map f xs' ;; Ok (y :: ys)
  end.

(** [v[k]] with a string key. *)
Definition py_getitem (v : pyval) (k : string) : res pyval :=
  match v with
  | PDict kvs =>
      match dict_lookup k kvs with
      | Some x => Ok x
      | None => Raise (KeyError k)
      end
  | PList _ => Raise (TypeError "list indices must be integers or slices, not str")
  | PStr _ => Raise (TypeError "string indices must be integers, not 'str'")
  | other => Raise (TypeError ("'" ++ type_name other ++ "' object is not subscriptable"))
  end.

(** [v.get(k, default)]. *)
Definition py_get (v : pyval) (k : string) (default : pyval) : res pyval :=
  match v with
  | PDict kvs =>
      match dict_lookup k kvs with
      | Some x => Ok x
      | None => Ok default
      end
  | other => Raise (AttributeError ("'" ++ type_name other ++ "' object has no attribute 'get'"))
  end.

(** [v.items()]. *)
Definition py_items (v : pyval) : res (list (string * pyval)) :=
  match v with
  | PDict kvs => Ok kvs
  | other => Raise (AttributeError ("'" ++ type_name other ++ "' object has no attribute 'items'"))
  end.

(** ** Data model: API descriptors and fetch results *)

(** An entry of [APIS]: [name], [url], [params], [processor], [latency]. *)
Record api_desc : Type := mk_api {
  api_name : string;
  api_url : string;
  api_params : list (string * pyval);
  api_processor : string;
  api_latency : Q
}.

Definition api_eqb (a b : api_desc) : bool :=
  String.eqb (api_name a) (api_name b)
  && String.eqb (api_url a) (api_url b)
  && pyval_eqb (PDict (api_params a)) (PDict (api_params b))
  && String.eqb (api_processor a) (api_processor b)
  && Qeq_bool (api_latency a) (api_latency b).

(** The result dict [{"api": .., "data": .., "error": ..}]; [res_api_time]
    is the ["api_time"] key that [fetch_with_latency] adds ([None] while the
    key is absent). *)
Record fetch_result : Type := mk_result {
  res_api : api_desc;
  res_data : pyval;
  res_error : option string;
  res_api_time : option Q
}.

(** Truthiness of [result["error"]]: [None] and [""] are false. *)
Definition truthy_str (e : option string) : bool :=
  match e with
  | None => false
  | Some s => negb (String.eqb s "")
  end.

(** ** [fetch_api_data] *)

(** What [requests.get] gives back: a transport failure (the exception's
    message), or a response with its status code and its body, [Some v] when
    the body parses as JSON to [v], [None] when [response.json()] fails. *)
Inductive http_outcome : Type :=
| Transport (msg : string)
| Response (status : Z) (body : option pyval).

(** [response.raise_for_status()]: raises for 4xx and 5xx only. *)
Definition raise_for_status (status : Z) : res unit :=
  if ((400 <=? status) && (status <? 500))%Z then
    Raise (RequestException "Client Error for url")
  else if ((500 <=? status) && (status <? 600))%Z then
    Raise (RequestException "Server Error for url")
  else Ok tt.

Definition response_json (body : option pyval) : res pyval :=
  match body with
  | Some v => Ok v
  | None => Raise (RequestException "Expecting value: line 1 column 1 (char 0)")
  end.

(** The body of [fetch_api_data] (without its cache decorator): the request,
    [raise_for_status], [response.json()], and the [except Exception]
    fallback. *)
Definition fetch_api_data (api : api_desc) (out : http_outcome) : fetch_result :=
  let attempt : res pyval :=
    match out with
    | Transport msg => Raise (RequestException msg)
    | Response status body =>
        _ <- raise_for_status status ;; response_json body
    end in
  match attempt with
  | Ok data => mk_result api data None None
  | Raise e => mk_result api PNone (Some (exn_str e)) None
  end.

(** ** pandas and plotly, as far as [process_data] uses them *)

Inductive chart_kind : Type := Line | Area.

(** A plotly figure: its kind, title, the two columns it plots and the
    plotted (x, y) rows in data-frame order. *)
Record figure : Type := mk_figure {
  fig_kind : chart_kind;
  fig_title : string;
  fig_x : string;
  fig_y : string;
  fig_series : list (pyval * pyval)
}.

(** A data frame: its column names (none for a frame built from an empty
    list of records) and its rows, one cell per column. *)
Record frame : Type := mk_frame {
  df_columns : list string;
  df_rows : list (list pyval)
}.

Definition is_scalar (v : pyval) : bool :=
  match v with
  | PList _ | PDict _ => false
  | _ => true
  end.

Definition row2 (p : pyval * pyval) : list pyval := [fst p; snd p].

(** [pd.DataFrame({c1: a, c2: b})]: list columns must have one length,
    a scalar column is broadcast along a list column, two scalars need an
    index.  Dict-valued columns (aligned on their keys by pandas) are outside
    the model and are taken as a construction failure. *)
Definition frame_of_columns (c1 c2 : string) (a b : pyval) : res frame :=
  match a, b with
  | PList xs, PList ys =>
      if Nat.eqb (length xs) (length ys) then Ok (mk_frame [c1; c2] (map row2 (combine xs ys)))
      else Raise (ValueError "All arrays must be of the same length")
  | PList xs, y =>
      if is_scalar y then Ok (mk_frame [c1; c2] (map (fun x => [x; y]) xs))
      else Raise (ValueError "Mixing dicts with non-Series may lead to ambiguous ordering.")
  | x, PList ys =>
      if is_scalar x then Ok (mk_frame [c1; c2] (map (fun y => [x; y]) ys))
      else Raise (ValueError "Mixing dicts with non-Series may lead to ambiguous ordering.")
  | x, y =>
      if is_scalar x && is_scalar y
      then Raise (ValueError "If using all scalar values, you must pass an index")
      else Raise (ValueError "Mixing dicts with non-Series may lead to ambiguous ordering.")
  end.

(** [pd.DataFrame(rows, columns=[c1, c2])] for a list of two-element rows
    ([None] gives an empty frame with the two columns).  Only these shapes
    are modelled: pandas pads shorter rows with NaN and reads dict rows by
    column name, which the model does not follow and takes as a
    construction failure. *)
Definition frame_of_rows (c1 c2 : string) (v : pyval) : res frame :=
  match v with
  | PNone => Ok (mk_frame [c1; c2] [])
  | PList rows =>
      rs <- res_map (fun r => match r with
                              | PList [a; b] => Ok [a; b]
                              | PList _ =>
                                  Raise (ValueError "2 columns passed, passed data had a different number of columns")
                              | _ => Raise (ValueError "DataFrame constructor not properly called!")
                              end) rows ;;
      Ok (mk_frame [c1; c2] rs)
  | _ => Raise (ValueError "DataFrame constructor not properly called!")
  end.

(** [pd.DataFrame(records)] for records [{c1: x, c2: y}]: an empty list of
    records gives a frame with no columns at all. *)
Definition frame_of_records (c1 c2 : string) (rows : list (pyval * pyval)) : frame :=
  match rows with
  | [] => mk_frame [] []
  | _ => mk_frame [c1; c2] (map row2 rows)
  end.

Fixpoint index_of (c : string) (cs : list string) : option nat :=
  match cs with
  | [] => None
  | c' :: cs' =>
      if String.eqb c c' then Some O
      else match index_of c cs' with Some n => Some (S n) | None => None end
  end.

Definition column (df : frame) (c : string) : list pyval :=
  match index_of c (df_columns df) with
  | Some n => map (fun r => nth n r PNone) (df_rows df)
  | None => []
  end.

(** [df[c] = vals], for a new column [c]. *)
Definition add_column (df : frame) (c : string) (vals : list pyval) : frame :=
  mk_frame (app (df_columns df) [c])
           (map (fun p => app (fst p) [snd p]) (combine (df_rows df) vals)).

(** Largest |milliseconds| a nanosecond [Timestamp] holds. *)
Definition max_timestamp_ms : Q := 9223372036854.

(** [pd.to_datetime(x, unit="ms")] on one cell: numbers within the
    nanosecond range become timestamps and [None] stays missing ([NaT]). *)
Definition to_datetime_ms (v : pyval) : res pyval :=
  match v with
  | PNum q =>
      if Qle_bool (Qabs q) max_timestamp_ms then Ok (PTimestamp q)
      else Raise (ValueError "Out of bounds nanosecond timestamp")
  | PNone => Ok PNone
  | _ => Raise (ValueError "non convertible value with the unit 'ms'")
  end.

Fixpoint show_columns_aux (cs : list string) : string :=
  match cs with
  | [] => ""
  | [c] => "'" ++ c ++ "'"
  | c :: cs' => "'" ++ c ++ "', " ++ show_columns_aux cs'
  end.

(** [px.line] / [px.area] with column names for [x] and [y]: both must be
    columns of the frame; the figure plots the two columns row by row. *)
Definition px_chart (k : chart_kind) (df : frame) (x y title : string) : res figure :=
  let missing arg c :=
    Raise (ValueError ("Value of '" ++ arg
      ++ "' is not the name of a column in 'data_frame'. Expected one of ["
      ++ show_columns_aux (df_columns df) ++ "] but received: " ++ c)) in
  if negb (existsb (String.eqb x) (df_columns df)) then missing "x" x
  else if negb (existsb (String.eqb y) (df_columns df)) then missing "y" y
  else Ok (mk_figure k title x y (combine (column df x) (column df y))).

(** ** [process_data] *)

(** [repr(s)] of a Python [str], as CPython's [unicode_repr] writes it; each
    character of the Rocq string is read as the code point of the same
    number (ASCII, then Latin-1).  The quote is the single quote unless the
    string holds a single quote and no double quote (code 34); the quote
    and the backslash are escaped, tab, newline and carriage return are
    written as backslash-t, backslash-n, backslash-r, other control
    characters and the non-printable Latin-1 ones (0x7f-0xa0, 0xad) as
    backslash-x and two lowercase hex digits. *)
Definition hex_digit (n : nat) : ascii :=
  ascii_of_nat (if Nat.ltb n 10 then 48 + n else 87 + n).

Definition repr_char (quote c : ascii) : string :=
  let n := nat_of_ascii c in
  if Ascii.eqb c quote || Ascii.eqb c "\"%char then String "\"%char (String c EmptyString)
  else if Nat.eqb n 9 then "\t"
  else if Nat.eqb n 10 then "\n"
  else if Nat.eqb n 13 then "\r"
  else if Nat.ltb n 32 || (Nat.leb 127 n && Nat.leb n 160) || Nat.eqb n 173 then
    String "\"%char (String "x"%char
      (String (hex_digit (n / 16)) (String (hex_digit (n mod 16)) EmptyString)))
  else String c EmptyString.

Fixpoint has_char (c : ascii) (s : string) : bool :=
  match s with
  | EmptyString => false
  | String c' s' => Ascii.eqb c c' || has_char c s'
  end.

Fixpoint repr_body (quote : ascii) (s : string) : string :=
  match s with
  | EmptyString => EmptyString
  | String c s' => repr_char quote c ++ repr_body quote s'
  end.

Definition double_quote : ascii := ascii_of_nat 34.

Definition py_repr_str (s : string) : string :=
  let quote := if has_char "'"%char s && negb (has_char double_quote s)
               then double_quote else "'"%char in
  String quote (repr_body quote s ++ String quote EmptyString).

(** Python ints of magnitude at least 2^1024 - 2^970 round past the largest
    float, and [float()] of them raises [OverflowError]. *)
Definition float_overflows (q : Q) : bool :=
  Z.eqb (Z.modulo (Qnum q) (Zpos (Qden q))) 0
  && Z.leb (2 ^ 1024 - 2 ^ 970) (Z.abs (Qnum q) / Zpos (Qden q)).

Section ProcessData.

(** Python's [float(s)] on a string: [Some q] for a float literal, [None]
    when it raises [ValueError]. *)
Variable py_float_str : string -> option Q.

(** [float(v)]; a JSON number is an int or a float, and an integral [PNum]
    past the float range is an int that overflows. *)
Definition py_float (v : pyval) : res Q :=
  match v with
  | PStr s =>
      match py_float_str s with
      | Some q => Ok q
      | None => Raise (ValueError ("could not convert string to float: " ++ py_repr_str s))
      end
  | PNum q =>
      if float_overflows q then Raise (OverflowError "int too large to convert to float")
      else Ok q
  | PBool b => Ok (if b then 1 else 0)
  | other => Raise (TypeError ("float() argument must be a string or a real number, not '"
                                ++ type_name other ++ "'"))
  end.

(** The body of the [try] block of [process_data], from
    [processor = result["api"]["processor"]] to [return fig, ...]. *)
Definition process_body (processor : string) (data : pyval) : res figure :=
  if String.eqb processor "weather" then
    h1 <- py_getitem data "hourly" ;;
    times <- py_getitem h1 "time" ;;
    h2 <- py_getitem data "hourly" ;;
    temps <- py_getitem h2 "temperature_2m" ;;
    df <- frame_of_columns "time" "temperature" times temps ;;
    px_chart Line df "time" "temperature" "Hourly Temperature Forecast"
  else if String.eqb processor "crypto" then
    prices <- py_getitem data "prices" ;;
    df <- frame_of_rows "timestamp" "price" prices ;;
    dates <- res_map to_datetime_ms (column df "timestamp") ;;
    px_chart Area (add_column df "date" dates) "date" "price" "Bitcoin Price (7 Days)"
  else if String.eqb processor "stocks" then
    ts <- py_get data "Time Series (5min)" (PDict []) ;;
    items <- py_items ts ;;
    rows <- res_map (fun kv => o <- py_getitem (snd kv) "1. open" ;;
                               f <- py_float o ;;
                               Ok (PStr (fst kv), PNum f)) items ;;
    px_chart Line (frame_of_records "time" "price" rows) "time" "price"
             "IBM Stock Price (5min intervals)"
  else
    (* no branch bound [fig]: [return fig, ...] raises inside the [try] *)
    Raise (UnboundLocalError "fig").

(** [process_data(result)]: [t_start] and [t_end] are the two readings of
    [time.time()]; returns [(fig, error, processing_time)]. *)
Definition process_data (t_start t_end : Q) (result : fetch_result)
  : option figure * option string * Q :=
  if truthy_str (res_error result) then (None, res_error result, 0)
  else
    match process_body (api_processor (res_api result)) (res_data result) with
    | Ok fig => (Some fig, None, t_end - t_start)
    | Raise e => (None, Some (exn_str e), t_end - t_start)
    end.

End ProcessData.

(** A [float()] on strings for decimal literals ([-]digits[.digits]), used
    to run the model on concrete payloads.  Python's [float] accepts more
    (exponents, [inf], [nan], underscores, surrounding blanks); the results
    below hold for any parser given to [process_data]. *)
Fixpoint parse_decimal (s : string) (acc scale : Z) (dot : bool) (nd : nat) : option Q :=
  match s with
  | EmptyString => if Nat.eqb nd 0 then None else Some (acc # Z.to_pos scale)
  | String c rest =>
      let n := Ascii.nat_of_ascii c in
      if (Nat.leb 48 n && Nat.leb n 57)%bool then
        parse_decimal rest (acc * 10 + Z.of_nat (n - 48))%Z
                      (if dot then scale * 10 else scale)%Z dot (S nd)
      else if (Ascii.eqb c "."%char && negb dot)%bool then parse_decimal rest acc scale true nd
      else None
  end.

Definition decimal_float (s : string) : option Q :=
  match s with
  | String "-"%char rest => option_map Qopp (parse_decimal rest 0 1 false 0)
  | _ => parse_decimal s 0 1 false 0
  end.

(** ** The source registry [APIS] *)

Definition weather_api : api_desc :=
  mk_api "Weather API" "https://api.open-meteo.com/v1/forecast"
    [("latitude", PNum (4071 # 100)); ("longitude", PNum (-7401 # 100));
     ("hourly", PStr "temperature_2m"); ("forecast_days", PNum 1)]
    "weather" 5.

Definition crypto_api : api_desc :=
  mk_api "Crypto Prices" "https://api.coingecko.com/api/v3/coins/bitcoin/market_chart"
    [("vs_currency", PStr "usd"); ("days", PNum 7); ("interval", PStr "daily")]
    "crypto" 5.

Definition stocks_api : api_desc :=
  mk_api "Stock Market" "https://www.alphavantage.co/query"
    [("function", PStr "TIME_SERIES_INTRADAY"); ("symbol", PStr "IBM");
     ("interval", PStr "5min"); ("apikey", PStr "demo")]
    "stocks" 5.

Definition APIS : list api_desc := [weather_api; crypto_api; stocks_api].

(** ** The memoised fetch and [fetch_with_latency] *)

(** [@st.cache_data(ttl=60)]: an entry is stamped with the clock when the
    wrapped call returns and is served while [now < stamp + ttl] (the
    [TTLCache] rule); afterwards the call runs again and the entry is
    replaced. *)
Definition cache_ttl : Q := 60.

(** The process state the fetches see: the clock ([time.time()]), the
    cache of [fetch_api_data] keyed by its argument, and the log of network
    requests issued (descriptor, start time). *)
Record world : Type := mk_world {
  clock : Q;
  cache : list (api_desc * (fetch_result * Q));
  net_calls : list (api_desc * Q)
}.

Definition set_clock (w : world) (t : Q) : world :=
  mk_world t (cache w) (net_calls w).

Fixpoint cache_find (api : api_desc) (c : list (api_desc * (fetch_result * Q)))
  : option (fetch_result * Q) :=
  match c with
  | [] => None
  | (k, e) :: rest => if api_eqb api k then Some e else cache_find api rest
  end.

Definition cache_lookup (api : api_desc) (now : Q) (c : list (api_desc * (fetch_result * Q)))
  : option fetch_result :=
  match cache_find api c with
  | Some (r, stamp) => if Qlt_bool now (stamp + cache_ttl) then Some r else None
  | None => None
  end.

Definition cache_store (api : api_desc) (r : fetch_result) (stamp : Q)
  (c : list (api_desc * (fetch_result * Q))) : list (api_desc * (fetch_result * Q)) :=
  (api, (r, stamp)) :: filter (fun e => negb (api_eqb api (fst e))) c.

Section Fetching.

(** The network: for a request for [api] started at time [t], the outcome
    and how long the request takes. *)
Variable net : api_desc -> Q -> http_outcome * Q.

(** [fetch_api_data(api)] through its cache decorator. *)
Definition cached_fetch_api_data (api : api_desc) (w : world) : fetch_result * world :=
  match cache_lookup api (clock w) (cache w) with
  | Some r => (r, w)
  | None =>
      let '(out, dur) := net api (clock w) in
      let r := fetch_api_data api out in
      let t := clock w + dur in
      (r, mk_world t (cache_store api r t (cache w)) ((api, clock w) :: net_calls w))
  end.

(** [time.sleep(secs)]: raises for a negative length, otherwise returns
    after at least [secs]; [oversleep] is how much longer it takes. *)
Definition sleep (secs oversleep : Q) (w : world) : res world :=
  if Qlt_bool secs 0 then Raise (ValueError "sleep length must be non-negative")
  else Ok (set_clock w (clock w + secs + oversleep)).

(** [fetch_with_latency(api)]. *)
Definition fetch_with_latency (oversleep : Q) (api : api_desc) (w : world)
  : res (fetch_result * world) :=
  let start_time := clock w in
  let '(result, w1) := cached_fetch_api_data api w in
  w2 <- sleep (api_latency api) oversleep w1 ;;
  Ok (mk_result (res_api result) (res_data result) (res_error result)
                (Some (clock w2 - start_time)), w2).

End Fetching.

(** ** The rendering of one slot in [main] *)

(** What a column shows: a subheader, an error box, a chart, or a metric
    (label and the number of seconds formatted with [:.2f]). *)
Inductive widget : Type :=
| Subheader (s : string)
| ErrorBox (s : string)
| Chart (fig : option figure)
| Metric (label : string) (secs : Q).

Definition res_of_option {A} (o : option A) (e : py_exn) : res A :=
  match o with Some a => Ok a | None => Raise e end.

(** The body of the [for future in as_completed(futures)] loop for one
    completed result; [t_start] and [t_end] are the clock readings of
    [process_data]. *)
Definition render_slot (py_float_str : string -> option Q) (t_start t_end : Q)
  (result : fetch_result) : res (list widget) :=
  let header := Subheader (api_name (res_api result)) in
  if truthy_str (res_error result) then
    api_time <- res_of_option (res_api_time result) (KeyError "api_time") ;;
    Ok [header; ErrorBox ("API Error: " ++ match res_error result with Some e => e | None => "None" end);
        Metric "API Time" api_time]
  else
    let '(fig, error, processing_time) := process_data py_float_str t_start t_end result in
    let first := if truthy_str error
                 then ErrorBox ("Processing Error: " ++ match error with Some e => e | None => "None" end)
                 else Chart fig in
    api_time <- res_of_option (res_api_time result) (KeyError "api_time") ;;
    Ok [header; first; Metric "API Time (incl. latency)" api_time;
        Metric "Processing Time" processing_time].

(** ** The completion-order loop of [main] *)

(** A submitted future: the slot index and the time its task finishes. *)
Definition future : Type := (nat * Q)%type.

Fixpoint insert_by_time (f : future) (fs : list future) : list future :=
  match fs with
  | [] => [f]
  | g :: gs => if Qle_bool (snd f) (snd g) then f :: g :: gs else g :: insert_by_time f gs
  end.

Fixpoint sort_by_time (fs : list future) : list future :=
  match fs with
  | [] => []
  | f :: fs' => insert_by_time f (sort_by_time fs')
  end.

(** [concurrent.futures.as_completed(fs)] called at time [start]: under the
    futures' locks it takes the set of futures already finished and yields
    them first, in the iteration order of that Python set ([set_order],
    which does not follow completion time); every other future is reported
    to its waiter when it finishes and is yielded in that order. *)
Definition as_completed (set_order : list future -> list future) (start : Q)
  (fs : list future) : list future :=
  let finished := filter (fun f => Qle_bool (snd f) start) fs in
  let pending := filter (fun f => Qlt_bool start (snd f)) fs in
  set_order finished ++ sort_by_time pending.

(** The slot indices in the order the loop of [main] renders them. *)
Definition render_order (set_order : list future -> list future) (start : Q)
  (fs : list future) : list nat :=
  map fst (as_completed set_order start fs).

(** The completion times in the order the loop of [main] renders them. *)
Definition render_times (set_order : list future -> list future) (start : Q)
  (fs : list future) : list Q :=
  map snd (as_completed set_order start fs).

(** One iteration of the [as_completed] loop of [main], from the fetch of
    the slot's API (run in the pool) to the widgets of its column;
    [future.result()] re-raises what [fetch_with_latency] raised. *)
Definition main_slot (net : api_desc -> Q -> http_outcome * Q) (oversleep : Q)
  (py_float_str : string -> option Q) (t_start t_end : Q) (api : api_desc) (w : world)
  : res (list widget * world) :=
  rw <- fetch_with_latency net oversleep api w ;;
  ws <- render_slot py_float_str t_start t_end (fst rw) ;;
  Ok (ws, snd rw).

(** * Properties *)

(** ** Helper lemmas *)

(** An exception whose [str] is not empty. *)
Definition msg_nonempty (e : py_exn) : Prop := exn_str e <> "".

Definition raises_nonempty {A} (m : res A) : Prop :=
  forall e, m = Raise e -> msg_nonempty e.

Ltac solve_nonempty :=
  let e := fresh "e" in
  let H := fresh "H" in
  intros e H; injection H as <-; unfold msg_nonempty; simpl; discriminate.

Lemma bind_nonempty {A B} (m : res A) (f : A -> res B) :
  raises_nonempty m -> (forall a, raises_nonempty (f a)) -> raises_nonempty (res_bind m f).
Proof.
  intros Hm Hf e; destruct m as [a|e']; simpl.
  - apply Hf.
  - intros [= <-]; now apply Hm.
Qed.

Lemma ok_nonempty {A} (a : A) : raises_nonempty (Ok a).
Proof. intros e H; discriminate. Qed.

Lemma res_map_nonempty {A B} (f : A -> res B) (xs : list A) :
  (forall x, raises_nonempty (f x)) -> raises_nonempty (res_map f xs).
Proof.
  intros Hf; induction xs as [|x xs IH]; simpl.
  - apply ok_nonempty.
  - apply bind_nonempty; [apply Hf|intros y].
    apply bind_nonempty; [apply IH|intros ys; apply ok_nonempty].
Qed.

Lemma py_getitem_nonempty v k : raises_nonempty (py_getitem v k).
Proof.
  destruct v; simpl; try solve_nonempty.
  destruct (dict_lookup k kvs); [apply ok_nonempty|solve_nonempty].
Qed.

Lemma py_get_nonempty v k d : raises_nonempty (py_get v k d).
Proof.
  destruct v; simpl; try solve_nonempty.
  destruct (dict_lookup k kvs); apply ok_nonempty.
Qed.

Lemma py_items_nonempty v : raises_nonempty (py_items v).
Proof. destruct v; simpl; try solve_nonempty; apply ok_nonempty. Qed.

Lemma py_float_nonempty flt v : raises_nonempty (py_float flt v).
Proof.
  destruct v; simpl; try solve_nonempty; try apply ok_nonempty.
  - destruct (float_overflows q); [solve_nonempty|apply ok_nonempty].
  - destruct (flt s); [apply ok_nonempty|solve_nonempty].
Qed.

Lemma to_datetime_ms_nonempty v : raises_nonempty (to_datetime_ms v).
Proof.
  destruct v; simpl; try solve_nonempty; try apply ok_nonempty.
  destruct (Qle_bool _ _); [apply ok_nonempty|solve_nonempty].
Qed.

Lemma frame_of_columns_nonempty c1 c2 a b : raises_nonempty (frame_of_columns c1 c2 a b).
Proof.
  unfold frame_of_columns.
  destruct a; destruct b;
    repeat match goal with
           | |- context [if ?c then _ else _] => destruct c
           end;
    first [apply ok_nonempty | solve_nonempty].
Qed.

Lemma frame_of_rows_nonempty c1 c2 v : raises_nonempty (frame_of_rows c1 c2 v).
Proof.
  destruct v; simpl; try solve_nonempty; try apply ok_nonempty.
  apply bind_nonempty; [apply res_map_nonempty|intros; apply ok_nonempty].
  intros r; destruct r as [| | | |cells| |]; try solve_nonempty.
  destruct cells as [|a [|b [|c rest]]]; try solve_nonempty; apply ok_nonempty.
Qed.

Lemma px_chart_nonempty k df x y t : raises_nonempty (px_chart k df x y t).
Proof.
  unfold px_chart.
  destruct (negb _); [solve_nonempty|].
  destruct (negb _); [solve_nonempty|apply ok_nonempty].
Qed.

Lemma process_body_nonempty flt p d : raises_nonempty (process_body flt p d).
Proof.
  unfold process_body.
  destruct (String.eqb p "weather");
    [|destruct (String.eqb p "crypto");
      [|destruct (String.eqb p "stocks"); [|solve_nonempty]]];
    repeat (apply bind_nonempty || intros ||
            apply py_getitem_nonempty || apply py_get_nonempty ||
            apply py_items_nonempty || apply frame_of_columns_nonempty ||
            apply frame_of_rows_nonempty || apply px_chart_nonempty ||
            apply py_float_nonempty || apply ok_nonempty ||
            apply res_map_nonempty || apply to_datetime_ms_nonempty).
Qed.

(** ** C1: what [fetch_api_data] returns *)

(** The outcomes the [try] block of [fetch_api_data] turns into an error. *)
Definition fetch_fails (out : http_outcome) : Prop :=
  match out with
  | Transport _ => True
  | Response status body => (400 <= status < 600)%Z \/ body = None
  end.

(** C1 (counterexample): a 200 response whose body is JSON [null] leaves
    both [error] and [data] at [None], and a 302 response with a JSON body
    is returned as a success. *)
Lemma C1_fetch_xor_counterexample :
  res_error (fetch_api_data weather_api (Response 200 (Some PNone))) = None
  /\ res_data (fetch_api_data weather_api (Response 200 (Some PNone))) = PNone
  /\ res_error (fetch_api_data weather_api (Response 302 (Some (PDict [])))) = None.
Proof. vm_compute; repeat split. Qed.

(** C1 (amended): [fetch_api_data] always returns a result for [api]: on a
    transport failure, a 4xx/5xx status or a body that is not JSON, [error]
    is the exception's message and [data] is [None]; otherwise [error] is
    [None] and [data] is the parsed body (itself [None] for a JSON [null]
    body). *)
Theorem C1_fetch_api_data_result (api : api_desc) (out : http_outcome) :
  let r := fetch_api_data api out in
  res_api r = api /\ res_api_time r = None /\
  ((fetch_fails out /\ res_data r = PNone /\ exists msg, res_error r = Some msg)
   \/ (~ fetch_fails out /\ res_error r = None /\
       exists status, out = Response status (Some (res_data r)))).
Proof.
  unfold fetch_api_data, fetch_fails.
  destruct out as [msg|status body]; simpl.
  - repeat split; left; repeat split; eauto.
  - unfold raise_for_status.
    destruct (((400 <=? status) && (status <? 500))%Z) eqn:E1; simpl.
    { apply andb_true_iff in E1 as [E1 E2]; apply Z.leb_le in E1; apply Z.ltb_lt in E2.
      repeat split; left; repeat split; eauto; left; lia. }
    destruct (((500 <=? status) && (status <? 600))%Z) eqn:E3; simpl.
    { apply andb_true_iff in E3 as [E3 E4]; apply Z.leb_le in E3; apply Z.ltb_lt in E4.
      repeat split; left; repeat split; eauto; left; lia. }
    assert (Hst : ~ (400 <= status < 600)%Z).
    { apply andb_false_iff in E1; apply andb_false_iff in E3.
      destruct E1 as [E1|E1]; [apply Z.leb_gt in E1|apply Z.ltb_ge in E1];
      destruct E3 as [E3|E3]; [apply Z.leb_gt in E3|apply Z.ltb_ge in E3|
                               apply Z.leb_gt in E3|apply Z.ltb_ge in E3]; lia. }
    destruct body as [v|]; simpl.
    + repeat split; right; repeat split; eauto.
      intros [H|H]; [contradiction|discriminate].
    + repeat split; left; repeat split; eauto.
Qed.

(** ** C2: the fetch-error short-circuit of [process_data] *)

(** C2 (counterexample): an [error] that is set but empty is falsy, so
    [process_data] does not short-circuit: it indexes the [None] payload and
    reports that failure, with the measured processing time. *)
Lemma C2_short_circuit_counterexample :
  process_data decimal_float 0 1 (mk_result weather_api PNone (Some "") (Some 5))
  = (None, Some "'NoneType' object is not subscriptable", 1).
Proof. vm_compute. reflexivity. Qed.

(** C2 (amended): when [error] is a non-empty message, [process_data]
    returns no chart, that very message and a processing time of 0, whatever
    the payload and the clock readings. *)
Theorem C2_error_short_circuit (py_float_str : string -> option Q) (t_start t_end : Q)
  (result : fetch_result) (e : string)
  (Herr : res_error result = Some e) (Hne : e <> "") :
  process_data py_float_str t_start t_end result = (None, Some e, 0).
Proof.
  unfold process_data, truthy_str; rewrite Herr.
  destruct (String.eqb e "") eqn:E.
  - apply String.eqb_eq in E; contradiction.
  - reflexivity.
Qed.

Lemma C2_error_short_circuit_witness :
  process_data decimal_float 3 7 (mk_result stocks_api (PStr "ignored") (Some "timeout") (Some 5))
  = (None, Some "timeout", 0).
Proof.
  apply (C2_error_short_circuit decimal_float 3 7
           (mk_result stocks_api (PStr "ignored") (Some "timeout") (Some 5)) "timeout").
  - reflexivity.
  - discriminate.
Defined.

(** ** C9: [process_data] always returns a triple *)

(** C9: [process_data] returns either a chart and no error, or no chart and
    a non-empty error message; for a processor tag other than weather,
    crypto and stocks (and no fetch error) it returns the error of the
    unbound [fig]. *)
Theorem C9_process_data_total (py_float_str : string -> option Q) (t_start t_end : Q)
  (result : fetch_result) :
  (let '(fig, err, _) := process_data py_float_str t_start t_end result in
   (exists f, fig = Some f /\ err = None)
   \/ (fig = None /\ exists m, err = Some m /\ m <> ""))
  /\ (truthy_str (res_error result) = false ->
      ~ In (api_processor (res_api result)) ["weather"; "crypto"; "stocks"] ->
      process_data py_float_str t_start t_end result
      = (None, Some (exn_str (UnboundLocalError "fig")), t_end - t_start)).
Proof.
  split.
  - unfold process_data.
    destruct (truthy_str (res_error result)) eqn:T.
    + right; split; [reflexivity|].
      destruct (res_error result) as [s|]; simpl in T; [|discriminate].
      exists s; split; [reflexivity|].
      intros ->; discriminate.
    + destruct (process_body py_float_str _ _) as [f|e] eqn:B.
      * left; eauto.
      * right; split; [reflexivity|]; exists (exn_str e); split; [reflexivity|].
        exact (process_body_nonempty _ _ _ e B).
  - intros T Hnot; unfold process_data; rewrite T.
    unfold process_body.
    destruct (String.eqb _ "weather") eqn:W;
      [apply String.eqb_eq in W; exfalso; apply Hnot; rewrite W; simpl; tauto|].
    destruct (String.eqb _ "crypto") eqn:C;
      [apply String.eqb_eq in C; exfalso; apply Hnot; rewrite C; simpl; tauto|].
    destruct (String.eqb _ "stocks") eqn:S;
      [apply String.eqb_eq in S; exfalso; apply Hnot; rewrite S; simpl; tauto|].
    reflexivity.
Qed.

Lemma C9_process_data_total_witness :
  process_data decimal_float 0 2
    (mk_result (mk_api "News" "https://example.org" [] "news" 1) (PDict []) None (Some 1))
  = (None, Some (exn_str (UnboundLocalError "fig")), 2).
Proof.
  apply (proj2 (C9_process_data_total decimal_float 0 2
    (mk_result (mk_api "News" "https://example.org" [] "news" 1) (PDict []) None (Some 1)))).
  - reflexivity.
  - simpl; intros [H|[H|[H|H]]]; discriminate || contradiction.
Defined.

(** ** C3: the weather branch *)

Lemma combine_map_fst_snd {A B} (l : list (A * B)) :
  combine (map fst l) (map snd l) = l.
Proof. induction l as [|[a b] l IH]; simpl; [reflexivity|now rewrite IH]. Qed.

Lemma column_row2_fst c1 c2 (l : list (pyval * pyval)) :
  column (mk_frame [c1; c2] (map row2 l)) c1 = map fst l.
Proof.
  unfold column; simpl; rewrite String.eqb_refl.
  rewrite map_map; reflexivity.
Qed.

Lemma column_row2_snd c1 c2 (l : list (pyval * pyval)) :
  c1 <> c2 -> column (mk_frame [c1; c2] (map row2 l)) c2 = map snd l.
Proof.
  intros Hne; unfold column; simpl.
  destruct (String.eqb c2 c1) eqn:E; [apply String.eqb_eq in E; congruence|].
  rewrite String.eqb_refl, map_map; reflexivity.
Qed.

(** C3 (counterexample): a [time] list and a [temperature_2m] list of
    different lengths are not zipped: the data frame constructor raises. *)
Lemma C3_weather_zip_counterexample :
  process_data decimal_float 0 1
    (mk_result weather_api
       (PDict [("hourly", PDict [("time", PList [PStr "00:00"]);
                                 ("temperature_2m", PList [])])]) None (Some 5))
  = (None, Some "All arrays must be of the same length", 1).
Proof. vm_compute. reflexivity. Qed.

(** C3 (amended): for a weather result without a fetch error whose payload
    has [hourly.time] and [hourly.temperature_2m] lists of the same length,
    [process_data] returns the line chart "Hourly Temperature Forecast" of
    the index-wise pairs (time, temperature); lists of different lengths
    give the error "All arrays must be of the same length". *)
Theorem C3_weather_series (py_float_str : string -> option Q) (t_start t_end : Q)
  (result : fetch_result) (d h : list (string * pyval)) (times temps : list pyval)
  (Hproc : api_processor (res_api result) = "weather")
  (Herr : truthy_str (res_error result) = false)
  (Hdata : res_data result = PDict d)
  (Hhourly : dict_lookup "hourly" d = Some (PDict h))
  (Htime : dict_lookup "time" h = Some (PList times))
  (Htemp : dict_lookup "temperature_2m" h = Some (PList temps)) :
  (length times = length temps ->
   process_data py_float_str t_start t_end result
   = (Some (mk_figure Line "Hourly Temperature Forecast" "time" "temperature"
                      (combine times temps)), None, t_end - t_start))
  /\ (length times <> length temps ->
      process_data py_float_str t_start t_end result
      = (None, Some "All arrays must be of the same length", t_end - t_start)).
Proof.
  unfold process_data; rewrite Herr, Hproc, Hdata.
  unfold process_body; simpl String.eqb; cbv iota beta.
  unfold py_getitem; rewrite Hhourly; cbn [res_bind].
  rewrite Htime; cbn [res_bind]; rewrite Htemp; cbn [res_bind frame_of_columns].
  split; intros Hlen.
  - apply Nat.eqb_eq in Hlen; rewrite Hlen.
    unfold px_chart; simpl.
    rewrite (column_row2_fst "time" "temperature"),
            (column_row2_snd "time" "temperature") by discriminate.
    rewrite combine_map_fst_snd; reflexivity.
  - apply Nat.eqb_neq in Hlen; rewrite Hlen; reflexivity.
Qed.

(** The scenario of the spec: two hours at 10 and 12 degrees. *)
Lemma C3_weather_series_witness :
  process_data decimal_float 0 1
    (mk_result weather_api
       (PDict [("hourly", PDict [("time", PList [PStr "00:00"; PStr "01:00"]);
                                 ("temperature_2m", PList [PNum 10; PNum 12])])]) None (Some 5))
  = (Some (mk_figure Line "Hourly Temperature Forecast" "time" "temperature"
                     [(PStr "00:00", PNum 10); (PStr "01:00", PNum 12)]), None, 1 - 0).
Proof.
  apply (proj1 (C3_weather_series decimal_float 0 1
    (mk_result weather_api
       (PDict [("hourly", PDict [("time", PList [PStr "00:00"; PStr "01:00"]);
                                 ("temperature_2m", PList [PNum 10; PNum 12])])]) None (Some 5))
    [("hourly", PDict [("time", PList [PStr "00:00"; PStr "01:00"]);
                       ("temperature_2m", PList [PNum 10; PNum 12])])]
    [("time", PList [PStr "00:00"; PStr "01:00"]);
     ("temperature_2m", PList [PNum 10; PNum 12])]
    [PStr "00:00"; PStr "01:00"] [PNum 10; PNum 12]
    eq_refl eq_refl eq_refl eq_refl eq_refl eq_refl)).
  reflexivity.
Defined.

(** ** C4: the stocks branch *)

Lemma stocks_rows_ok (py_float_str : string -> option Q)
  (kvs : list (string * pyval)) (qs : list Q) :
  Forall2 (fun kv q => exists s, py_getitem (snd kv) "1. open" = Ok (PStr s)
                                 /\ py_float_str s = Some q) kvs qs ->
  res_map (fun kv => o <- py_getitem (snd kv) "1. open" ;;
                     f <- py_float py_float_str o ;;
                     Ok (PStr (fst kv), PNum f)) kvs
  = Ok (combine (map (fun kv => PStr (fst kv)) kvs) (map PNum qs)).
Proof.
  induction 1 as [|kv q kvs' qs' [s [Hget Hflt]] _ IH]; simpl; [reflexivity|].
  rewrite Hget; simpl; rewrite Hflt; simpl; rewrite IH; reflexivity.
Qed.

(** The message plotly gives when the [x] column "time" is missing from a
    frame with no columns. *)
Definition no_time_column_msg : string :=
  "Value of 'x' is not the name of a column in 'data_frame'. Expected one of [] but received: time".




(** ** C10: a stocks payload without its time series *)

(** C10: for a stocks result without a fetch error whose payload dict lacks
    "Time Series (5min)", [process_data] behaves as for an empty mapping: it
    fails on the missing "time" column, never with a [KeyError] for the
    key; a weather or crypto payload dict without its top-level key fails
    with the [KeyError] of that key. *)
Theorem C10_stocks_missing_key (py_float_str : string -> option Q) (t_start t_end : Q)
  (result : fetch_result) (d : list (string * pyval))
  (Hproc : api_processor (res_api result) = "stocks")
  (Herr : truthy_str (res_error result) = false)
  (Hdata : res_data result = PDict d)
  (Hmissing : dict_lookup "Time Series (5min)" d = None) :
  process_data py_float_str t_start t_end result
  = process_data py_float_str t_start t_end
      (mk_result (res_api result) (PDict [("Time Series (5min)", PDict [])])
                 (res_error result) (res_api_time result))
  /\ process_data py_float_str t_start t_end result
     = (None, Some no_time_column_msg, t_end - t_start)
  /\ no_time_column_msg <> exn_str (KeyError "Time Series (5min)")
  /\ (forall r' d' key, (api_processor (res_api r'), key) = ("weather", "hourly")
                        \/ (api_processor (res_api r'), key) = ("crypto", "prices") ->
      truthy_str (res_error r') = false ->
      res_data r' = PDict d' -> dict_lookup key d' = None ->
      process_data py_float_str t_start t_end r'
      = (None, Some (exn_str (KeyError key)), t_end - t_start)).
Proof.
  assert (Hstocks : process_data py_float_str t_start t_end result
                    = (None, Some no_time_column_msg, t_end - t_start)).
  { unfold process_data; rewrite Herr, Hproc, Hdata.
    unfold process_body; simpl String.eqb; cbv iota beta.
    unfold py_get; rewrite Hmissing; reflexivity. }
  split; [|split; [exact Hstocks|split]].
  - rewrite Hstocks; unfold process_data; simpl; rewrite Herr, Hproc; reflexivity.
  - unfold no_time_column_msg; simpl; discriminate.
  - intros r' d' key Hk Herr' Hdata' Hmiss.
    unfold process_data; rewrite Herr', Hdata'.
    destruct Hk as [Hk|Hk]; injection Hk as Hp ->; rewrite Hp;
      unfold process_body; simpl String.eqb; cbv iota beta;
      unfold py_getitem; rewrite Hmiss; reflexivity.
Qed.

Lemma C10_stocks_missing_key_witness :
  process_data decimal_float 0 1 (mk_result stocks_api (PDict [("Note", PStr "rate limit")]) None (Some 5))
  = (None, Some no_time_column_msg, 1 - 0).
Proof.
  exact (proj1 (proj2 (C10_stocks_missing_key decimal_float 0 1
    (mk_result stocks_api (PDict [("Note", PStr "rate limit")]) None (Some 5))
    [("Note", PStr "rate limit")] eq_refl eq_refl eq_refl eq_refl))).
Defined.

(** ** C5: the timing metrics of a slot *)

(** C5 (counterexample): a fetch-level error is rendered with the fetch time
    only; the loop [continue]s before the processing-time metric. *)
Lemma C5_two_metrics_counterexample :
  render_slot decimal_float 0 1 (mk_result weather_api PNone (Some "500 Server Error") (Some 5))
  = Ok [Subheader "Weather API"; ErrorBox "API Error: 500 Server Error"; Metric "API Time" 5].
Proof. reflexivity. Qed.

(** C5 (amended): with a non-empty fetch error the slot shows the error and
    the single metric "API Time"; otherwise it shows either the chart
    [process_data] built or its non-empty processing error, followed by the
    two metrics "API Time (incl. latency)" and "Processing Time" (the time
    [process_data] measured). *)
Theorem C5_slot_metrics (py_float_str : string -> option Q) (t_start t_end : Q)
  (result : fetch_result) (api_time : Q)
  (Htime : res_api_time result = Some api_time) :
  (forall e, res_error result = Some e -> e <> "" ->
   render_slot py_float_str t_start t_end result
   = Ok [Subheader (api_name (res_api result)); ErrorBox ("API Error: " ++ e);
         Metric "API Time" api_time])
  /\ (truthy_str (res_error result) = false ->
      (exists fig,
         process_data py_float_str t_start t_end result = (Some fig, None, t_end - t_start)
         /\ render_slot py_float_str t_start t_end result
            = Ok [Subheader (api_name (res_api result)); Chart (Some fig);
                  Metric "API Time (incl. latency)" api_time;
                  Metric "Processing Time" (t_end - t_start)])
      \/ (exists m, m <> "" /\
         process_data py_float_str t_start t_end result = (None, Some m, t_end - t_start)
         /\ render_slot py_float_str t_start t_end result
            = Ok [Subheader (api_name (res_api result)); ErrorBox ("Processing Error: " ++ m);
                  Metric "API Time (incl. latency)" api_time;
                  Metric "Processing Time" (t_end - t_start)])).
Proof.
  split.
  - intros e He Hne; unfold render_slot; rewrite He; simpl truthy_str.
    destruct (String.eqb e "") eqn:E; [apply String.eqb_eq in E; contradiction|].
    simpl; rewrite Htime; reflexivity.
  - intros Hf; unfold render_slot; rewrite Hf.
    unfold process_data; rewrite Hf.
    destruct (process_body _ _ _) as [fig|e] eqn:B.
    + left; exists fig; split; [reflexivity|].
      simpl; rewrite Htime; reflexivity.
    + right; exists (exn_str e).
      pose proof (process_body_nonempty _ _ _ e B) as Hne.
      split; [exact Hne|split; [reflexivity|]].
      unfold truthy_str.
      destruct (String.eqb (exn_str e) "") eqn:E; [apply String.eqb_eq in E; contradiction|].
      simpl; rewrite Htime; reflexivity.
Qed.

Lemma C5_slot_metrics_witness :
  exists m, m <> "" /\
  process_data decimal_float 0 1 (mk_result stocks_api (PDict [("Note", PStr "limit")]) None (Some 5))
  = (None, Some m, 1 - 0)
  /\ render_slot decimal_float 0 1 (mk_result stocks_api (PDict [("Note", PStr "limit")]) None (Some 5))
     = Ok [Subheader "Stock Market"; ErrorBox ("Processing Error: " ++ m);
           Metric "API Time (incl. latency)" 5; Metric "Processing Time" (1 - 0)].
Proof.
  destruct (proj2 (C5_slot_metrics decimal_float 0 1
    (mk_result stocks_api (PDict [("Note", PStr "limit")]) None (Some 5)) 5 eq_refl) eq_refl)
    as [[fig [Hp _]]|H].
  - vm_compute in Hp; discriminate.
  - exact H.
Defined.

(** ** C6: the simulated latency *)

Lemma Qlt_bool_false a b : Qlt_bool a b = false <-> b <= a.
Proof.
  unfold Qlt_bool; rewrite negb_false_iff; split; intros H.
  - now apply Qle_bool_imp_le.
  - now apply Qle_bool_iff.
Qed.

Lemma Qlt_bool_true a b : Qlt_bool a b = true <-> a < b.
Proof.
  unfold Qlt_bool; rewrite negb_true_iff; split; intros H.
  - apply Qnot_le_lt; intros Hle; apply Qle_bool_iff in Hle; congruence.
  - destruct (Qle_bool b a) eqn:E; [|reflexivity].
    apply Qle_bool_iff in E; exfalso; apply (Qlt_not_le a b); assumption.
Qed.

Lemma cached_fetch_clock net api w :
  (forall a t, 0 <= snd (net a t)) ->
  clock w <= clock (snd (cached_fetch_api_data net api w)).
Proof.
  intros Hnet; unfold cached_fetch_api_data.
  destruct (cache_lookup api (clock w) (cache w)); simpl; [apply Qle_refl|].
  specialize (Hnet api (clock w)).
  destruct (net api (clock w)) as [out dur]; simpl in *.
  rewrite <- (Qplus_0_r (clock w)) at 1; apply Qplus_le_r; assumption.
Qed.

(** C6: with a non-negative latency (and a clock that does not go back),
    every [fetch_with_latency] call, cache hit or not, sleeps for the
    latency after the cached fetch and records as [api_time] the whole time
    since the call started, which is at least the latency. *)
Theorem C6_latency_elapsed (net : api_desc -> Q -> http_outcome * Q) (oversleep : Q)
  (api : api_desc) (w : world)
  (Hnet : forall a t, 0 <= snd (net a t)) (Hover : 0 <= oversleep)
  (Hlat : 0 <= api_latency api) :
  exists r w',
    fetch_with_latency net oversleep api w = Ok (r, w')
    /\ clock w' = clock (snd (cached_fetch_api_data net api w)) + api_latency api + oversleep
    /\ res_api_time r = Some (clock w' - clock w)
    /\ api_latency api <= clock w' - clock w.
Proof.
  pose proof (cached_fetch_clock net api w Hnet) as Hmono.
  unfold fetch_with_latency.
  destruct (cached_fetch_api_data net api w) as [r w1] eqn:E; simpl in Hmono.
  unfold sleep.
  assert (Hs : Qlt_bool (api_latency api) 0 = false) by (apply Qlt_bool_false; exact Hlat).
  rewrite Hs; simpl.
  eexists; eexists; split; [reflexivity|].
  simpl; split; [reflexivity|split; [reflexivity|]].
  apply (Qplus_le_l _ _ (clock w)).
  setoid_replace (clock w1 + api_latency api + oversleep - clock w + clock w)
    with (clock w1 + api_latency api + oversleep) by ring.
  setoid_replace (api_latency api + clock w) with (clock w + api_latency api + 0) by ring.
  apply Qplus_le_compat; [apply Qplus_le_compat|]; auto using Qle_refl.
Qed.

Lemma C6_latency_elapsed_witness :
  exists r w',
    fetch_with_latency (fun _ _ => (Transport "timed out", 2)) 0 weather_api (mk_world 0 [] []) = Ok (r, w')
    /\ clock w' = clock (snd (cached_fetch_api_data (fun _ _ => (Transport "timed out", 2))
                                weather_api (mk_world 0 [] []))) + api_latency weather_api + 0
    /\ res_api_time r = Some (clock w' - clock (mk_world 0 [] []))
    /\ api_latency weather_api <= clock w' - clock (mk_world 0 [] []).
Proof.
  apply (C6_latency_elapsed (fun _ _ => (Transport "timed out", 2)) 0 weather_api (mk_world 0 [] [])).
  - intros; simpl; discriminate.
  - apply Qle_refl.
  - simpl; discriminate.
Defined.

(** ** C7: the time-to-live of the cache *)

Lemma pyval_eqb_refl : forall v, pyval_eqb v v = true.
Proof.
  fix IH 1.
  intros [|b|q|s|xs|kvs|q]; simpl.
  - reflexivity.
  - apply Bool.eqb_reflx.
  - apply Qeq_bool_iff; reflexivity.
  - apply String.eqb_refl.
  - revert xs; fix IHl 1; intros [|x xs]; [reflexivity|].
    simpl; rewrite IH; apply IHl.
  - revert kvs; fix IHl 1; intros [|[k x] kvs]; [reflexivity|].
    simpl; rewrite String.eqb_refl, IH; apply IHl.
  - apply Qeq_bool_iff; reflexivity.
Qed.

Lemma api_eqb_refl api : api_eqb api api = true.
Proof.
  unfold api_eqb.
  rewrite !String.eqb_refl, pyval_eqb_refl.
  assert (Hq : Qeq_bool (api_latency api) (api_latency api) = true)
    by (apply Qeq_bool_iff; reflexivity).
  rewrite Hq; reflexivity.
Qed.

Lemma cache_find_store api r t c : cache_find api (cache_store api r t c) = Some (r, t).
Proof. unfold cache_store; simpl; rewrite api_eqb_refl; reflexivity. Qed.

(** The network of the counterexample: every request succeeds in 1s. *)
Definition quick_net (_ : api_desc) (_ : Q) : http_outcome * Q :=
  (Response 200 (Some (PDict [])), 1).

(** C7 (counterexample): the weather fetch starting at 0 completes at 6
    (1s of network, 5s of latency); a second fetch starting at 64, 58 after
    that completion, finds the entry stamped at 1 expired and issues a
    second request. *)
Lemma C7_cache_ttl_counterexample :
  match fetch_with_latency quick_net 0 weather_api (mk_world 0 [] []) with
  | Ok (_, w1) =>
      clock w1 = 6 /\
      match fetch_with_latency quick_net 0 weather_api (set_clock w1 64) with
      | Ok (_, w2) => length (net_calls w2) = 2%nat
      | Raise _ => False
      end
  | Raise _ => False
  end.
Proof. vm_compute. split; reflexivity. Qed.

(** C7 (amended): the cache entry of [fetch_api_data] is stamped when the
    network call returns, before the latency sleep.  After a call that
    missed the cache, a call for the same descriptor starting less than 60
    after that stamp reuses the stored result (payload or error) without a
    network request; one starting 60 or more after it issues a new
    request. *)
Theorem C7_cache_ttl (net : api_desc -> Q -> http_outcome * Q) (api : api_desc)
  (w w1 : world) (r : fetch_result)
  (Hmiss : cache_lookup api (clock w) (cache w) = None)
  (Hcall : cached_fetch_api_data net api w = (r, w1)) :
  net_calls w1 = (api, clock w) :: net_calls w
  /\ (forall t, t < clock w1 + cache_ttl ->
      cached_fetch_api_data net api (set_clock w1 t) = (r, set_clock w1 t))
  /\ (forall t, clock w1 + cache_ttl <= t ->
      net_calls (snd (cached_fetch_api_data net api (set_clock w1 t)))
      = (api, t) :: net_calls w1).
Proof.
  unfold cached_fetch_api_data in Hcall; rewrite Hmiss in Hcall.
  destruct (net api (clock w)) as [out dur]; injection Hcall as <- <-.
  split; [reflexivity|split].
  - intros t Ht; unfold cached_fetch_api_data, cache_lookup; cbn [cache clock set_clock].
    rewrite cache_find_store.
    assert (Hlt : Qlt_bool t (clock w + dur + cache_ttl) = true) by (apply Qlt_bool_true; exact Ht).
    rewrite Hlt; reflexivity.
  - intros t Ht; unfold cached_fetch_api_data, cache_lookup; cbn [cache clock set_clock].
    rewrite cache_find_store.
    assert (Hge : Qlt_bool t (clock w + dur + cache_ttl) = false) by (apply Qlt_bool_false; exact Ht).
    rewrite Hge; destruct (net api t); reflexivity.
Qed.

Lemma C7_cache_ttl_witness :
  let w1 := snd (cached_fetch_api_data quick_net weather_api (mk_world 0 [] [])) in
  cached_fetch_api_data quick_net weather_api (set_clock w1 60)
  = (fst (cached_fetch_api_data quick_net weather_api (mk_world 0 [] [])), set_clock w1 60).
Proof.
  exact (proj1 (proj2 (C7_cache_ttl quick_net weather_api (mk_world 0 [] [])
    (snd (cached_fetch_api_data quick_net weather_api (mk_world 0 [] [])))
    (fst (cached_fetch_api_data quick_net weather_api (mk_world 0 [] [])))
    eq_refl eq_refl)) 60 eq_refl).
Defined.

(** ** C8: the order in which [main] renders the slots *)

Definition finished_before (f g : future) : Prop := snd f <= snd g.

Lemma insert_by_time_perm f l : Permutation (insert_by_time f l) (f :: l).
Proof.
  induction l as [|g l IH]; simpl; [reflexivity|].
  destruct (Qle_bool (snd f) (snd g)); [reflexivity|].
  rewrite IH; apply perm_swap.
Qed.

Lemma sort_by_time_perm l : Permutation (sort_by_time l) l.
Proof.
  induction l as [|f l IH]; simpl; [reflexivity|].
  rewrite insert_by_time_perm, IH; reflexivity.
Qed.

Lemma insert_by_time_hd g f l :
  HdRel finished_before g l -> finished_before g f ->
  HdRel finished_before g (insert_by_time f l).
Proof.
  intros Hhd Hgf; destruct l as [|h l]; simpl.
  - constructor; exact Hgf.
  - destruct (Qle_bool (snd f) (snd h)); constructor; [exact Hgf|].
    inversion Hhd; assumption.
Qed.

Lemma insert_by_time_sorted f l :
  Sorted finished_before l -> Sorted finished_before (insert_by_time f l).
Proof.
  induction 1 as [|g l Hl IH Hhd]; simpl.
  - repeat constructor.
  - destruct (Qle_bool (snd f) (snd g)) eqn:E.
    + constructor; [constructor; assumption|].
      constructor; apply Qle_bool_iff; exact E.
    + constructor; [exact IH|].
      apply insert_by_time_hd; [exact Hhd|].
      unfold finished_before; apply Qlt_le_weak, Qnot_le_lt.
      intros Hle; apply Qle_bool_iff in Hle; congruence.
Qed.

Lemma sort_by_time_sorted l : Sorted finished_before (sort_by_time l).
Proof.
  induction l as [|f l IH]; simpl; [constructor|].
  apply insert_by_time_sorted; exact IH.
Qed.

(** C8 (counterexample): futures that are already done when
    [as_completed] starts are yielded in the iteration order of a Python
    set; with that order being submission order, slot 0 (done at 2) is
    rendered before slot 1 (done at 1). *)
Lemma C8_completion_order_counterexample :
  render_order (fun l => l) 3 [(0%nat, 2); (1%nat, 1)] = [0%nat; 1%nat]
  /\ render_times (fun l => l) 3 [(0%nat, 2); (1%nat, 1)] = [2; 1].
Proof. split; reflexivity. Qed.

(** C8 (amended): the loop of [main] renders first the futures already
    finished when [as_completed] starts, in an unspecified order, then every
    other future in non-decreasing order of completion time; so when no
    future has finished by then, all slots are rendered in completion
    order. *)
Theorem C8_completion_order (set_order : list future -> list future) (start : Q)
  (fs : list future) (Hset : forall l, Permutation (set_order l) l) :
  (exists pre post,
     as_completed set_order start fs = app pre post
     /\ (forall f, In f pre <-> In f fs /\ snd f <= start)
     /\ (forall f, In f post <-> In f fs /\ start < snd f)
     /\ Sorted finished_before post)
  /\ ((forall f, In f fs -> start < snd f) ->
      Sorted finished_before (as_completed set_order start fs)).
Proof.
  split.
  - eexists; eexists; split; [reflexivity|].
    split; [|split].
    + intros f; split.
      * intros H; apply (Permutation_in _ (Hset _)), filter_In in H as [H1 H2].
        split; [exact H1|apply Qle_bool_iff; exact H2].
      * intros [H1 H2]; apply (Permutation_in _ (Permutation_sym (Hset _))), filter_In.
        split; [exact H1|apply Qle_bool_iff; exact H2].
    + intros f; split.
      * intros H; apply (Permutation_in _ (sort_by_time_perm _)), filter_In in H as [H1 H2].
        split; [exact H1|apply Qlt_bool_true; exact H2].
      * intros [H1 H2]; apply (Permutation_in _ (Permutation_sym (sort_by_time_perm _))), filter_In.
        split; [exact H1|apply Qlt_bool_true; exact H2].
    + apply sort_by_time_sorted.
  - intros Hall; unfold as_completed; cbv zeta.
    assert (Hnil : filter (fun f => Qle_bool (snd f) start) fs = []).
    { induction fs as [|f fs IH]; simpl; [reflexivity|].
      destruct (Qle_bool (snd f) start) eqn:E.
      - apply Qle_bool_iff in E; exfalso.
        apply (Qlt_not_le _ _ (Hall f (or_introl eq_refl)) E).
      - apply IH; intros g Hg; apply Hall; right; exact Hg. }
    rewrite Hnil.
    match goal with
    | |- context [set_order ?l] =>
        assert (Hp : set_order l = []) by (apply Permutation_nil, Permutation_sym, Hset);
        rewrite Hp
    end; simpl.
    apply sort_by_time_sorted.
Qed.

Lemma C8_completion_order_witness :
  Sorted finished_before (as_completed (fun l => l) 0 [(0%nat, 5); (1%nat, 3); (2%nat, 4)]).
Proof.
  apply (proj2 (C8_completion_order (fun l => l) 0 [(0%nat, 5); (1%nat, 3); (2%nat, 4)]
                  (fun l => Permutation_refl l))).
  simpl; intros f [<-|[<-|[<-|[]]]]; reflexivity.
Defined.

(** * Further properties of the code *)

(** ** The crypto branch of [process_data] *)

Lemma combine_map {A B C} (f : A -> B) (g : A -> C) (l : list A) :
  combine (map f l) (map g l) = map (fun x => (f x, g x)) l.
Proof. induction l as [|x l IH]; simpl; [reflexivity|now rewrite IH]. Qed.

Lemma crypto_rows_ok (rows : list (Q * pyval)) :
  res_map (fun r => match r with
                    | PList [a; b] => Ok [a; b]
                    | PList _ =>
                        Raise (ValueError "2 columns passed, passed data had a different number of columns")
                    | _ => Raise (ValueError "DataFrame constructor not properly called!")
                    end) (map (fun p => PList [PNum (fst p); snd p]) rows)
  = Ok (map (fun p => [PNum (fst p); snd p]) rows).
Proof. induction rows as [|p rows IH]; simpl; [reflexivity|now rewrite IH]. Qed.

Lemma crypto_dates_ok (rows : list (Q * pyval)) :
  Forall (fun p => Qabs (fst p) <= max_timestamp_ms) rows ->
  res_map to_datetime_ms (map (fun p => PNum (fst p)) rows)
  = Ok (map (fun p => PTimestamp (fst p)) rows).
Proof.
  induction 1 as [|p rows Hp _ IH]; simpl; [reflexivity|].
  assert (Hb : Qle_bool (Qabs (fst p)) max_timestamp_ms = true) by (apply Qle_bool_iff; exact Hp).
  rewrite Hb; simpl; rewrite IH; reflexivity.
Qed.

(** X1: for a crypto result without a fetch error whose "prices" are
    [timestamp_ms, price] pairs with timestamps in the nanosecond range,
    [process_data] returns the area chart "Bitcoin Price (7 Days)" of
    (timestamp as a date, price), in the payload's order. *)
Theorem X1_crypto_series (py_float_str : string -> option Q) (t_start t_end : Q)
  (result : fetch_result) (d : list (string * pyval)) (rows : list (Q * pyval))
  (Hproc : api_processor (res_api result) = "crypto")
  (Herr : truthy_str (res_error result) = false)
  (Hdata : res_data result = PDict d)
  (Hprices : dict_lookup "prices" d = Some (PList (map (fun p => PList [PNum (fst p); snd p]) rows)))
  (Hbounds : Forall (fun p => Qabs (fst p) <= max_timestamp_ms) rows) :
  process_data py_float_str t_start t_end result
  = (Some (mk_figure Area "Bitcoin Price (7 Days)" "date" "price"
                     (map (fun p => (PTimestamp (fst p), snd p)) rows)),
     None, t_end - t_start).
Proof.
  unfold process_data; rewrite Herr, Hproc, Hdata.
  unfold process_body; simpl String.eqb; cbv iota beta.
  unfold py_getitem; rewrite Hprices; cbn [res_bind frame_of_rows].
  rewrite crypto_rows_ok; cbn [res_bind].
  unfold column at 1; simpl df_columns; simpl index_of; cbv iota; simpl df_rows.
  rewrite map_map; simpl nth.
  rewrite (crypto_dates_ok rows Hbounds); cbn [res_bind].
  unfold px_chart, add_column; simpl df_columns; simpl existsb; simpl negb; cbv iota.
  unfold column; simpl df_columns; simpl index_of; cbv iota; simpl df_rows.
  rewrite combine_map, !map_map; simpl.
  rewrite combine_map, map_map; reflexivity.
Qed.

(** The scenario of the spec: one price of 35000.5 at 1700000000000 ms. *)
Lemma X1_crypto_series_witness :
  process_data decimal_float 0 1
    (mk_result crypto_api (PDict [("prices", PList [PList [PNum 1700000000000; PNum 35000.5]])])
               None (Some 5))
  = (Some (mk_figure Area "Bitcoin Price (7 Days)" "date" "price"
                     [(PTimestamp 1700000000000, PNum 35000.5)]), None, 1 - 0).
Proof.
  refine (X1_crypto_series decimal_float 0 1
    (mk_result crypto_api (PDict [("prices", PList [PList [PNum 1700000000000; PNum 35000.5]])])
               None (Some 5))
    [("prices", PList [PList [PNum 1700000000000; PNum 35000.5]])]
    [(1700000000000, PNum 35000.5)] eq_refl eq_refl eq_refl eq_refl _).
  constructor; [vm_compute; discriminate|constructor].
Defined.

(** ** Malformed rows *)

Lemma res_map_raise_at {A B} (f : A -> res B) (pre post : list A) (x : A) (ys : list B)
  (e : py_exn) :
  res_map f pre = Ok ys -> f x = Raise e -> res_map f (app pre (x :: post)) = Raise e.
Proof.
  revert ys; induction pre as [|y pre IH]; simpl; intros ys Hpre Hf.
  - rewrite Hf; reflexivity.
  - destruct (f y) as [b|e']; simpl in *; [|discriminate].
    destruct (res_map f pre) as [bs|e'] eqn:E; simpl in *; [|discriminate].
    rewrite (IH bs eq_refl Hf); reflexivity.
Qed.

Lemma stocks_rows_pre_ok (py_float_str : string -> option Q)
  (kvs : list (string * pyval)) (qs : list Q) :
  Forall2 (fun kv q => exists s, py_getitem (snd kv) "1. open" = Ok (PStr s)
                                 /\ py_float_str s = Some q) kvs qs ->
  exists ys, res_map (fun kv => o <- py_getitem (snd kv) "1. open" ;;
                                f <- py_float py_float_str o ;;
                                Ok (PStr (fst kv), PNum f)) kvs = Ok ys.
Proof. intros H; rewrite (stocks_rows_ok py_float_str kvs qs H); eauto. Qed.

(** X3: in a stocks payload, the first entry (in the mapping's order) whose
    value is a dict without "1. open" makes [process_data] return no chart
    and the error "'1. open'" of the [KeyError], when the entries before it
    are well formed. *)
Theorem X3_stocks_missing_open (py_float_str : string -> option Q) (t_start t_end : Q)
  (result : fetch_result) (d pre post v : list (string * pyval)) (k : string) (qs : list Q)
  (Hproc : api_processor (res_api result) = "stocks")
  (Herr : truthy_str (res_error result) = false)
  (Hdata : res_data result = PDict d)
  (Hts : dict_lookup "Time Series (5min)" d = Some (PDict (app pre ((k, PDict v) :: post))))
  (Hpre : Forall2 (fun kv q => exists s, py_getitem (snd kv) "1. open" = Ok (PStr s)
                                         /\ py_float_str s = Some q) pre qs)
  (Hopen : dict_lookup "1. open" v = None) :
  process_data py_float_str t_start t_end result
  = (None, Some "'1. open'", t_end - t_start).
Proof.
  destruct (stocks_rows_pre_ok py_float_str pre qs Hpre) as [ys Hys].
  unfold process_data; rewrite Herr, Hproc, Hdata.
  unfold process_body; simpl String.eqb; cbv iota beta.
  unfold py_get; rewrite Hts; cbn [res_bind py_items].
  erewrite (res_map_raise_at _ pre post (k, PDict v) ys (KeyError "1. open") Hys);
    [reflexivity|].
  simpl; rewrite Hopen; reflexivity.
Qed.

Lemma X3_stocks_missing_open_witness :
  process_data decimal_float 0 1
    (mk_result stocks_api
       (PDict [("Time Series (5min)",
                PDict [("09:30", PDict [("1. open", PStr "1.5")]);
                       ("09:35", PDict [("2. high", PStr "2")])])]) None (Some 5))
  = (None, Some "'1. open'", 1 - 0).
Proof.
  refine (X3_stocks_missing_open decimal_float 0 1
    (mk_result stocks_api
       (PDict [("Time Series (5min)",
                PDict [("09:30", PDict [("1. open", PStr "1.5")]);
                       ("09:35", PDict [("2. high", PStr "2")])])]) None (Some 5))
    [("Time Series (5min)",
      PDict [("09:30", PDict [("1. open", PStr "1.5")]);
             ("09:35", PDict [("2. high", PStr "2")])])]
    [("09:30", PDict [("1. open", PStr "1.5")])] [] [("2. high", PStr "2")] "09:35"
    [15 # 10] eq_refl eq_refl eq_refl eq_refl _ eq_refl).
  constructor; [exists "1.5"; split; reflexivity|constructor].
Defined.

(** X4: in a stocks payload, the first entry whose "1. open" string [float]
    rejects makes [process_data] return no chart and the error
    "could not convert string to float: " followed by [repr(s)], when the
    entries before it are well formed. *)
Theorem X4_stocks_bad_float (py_float_str : string -> option Q) (t_start t_end : Q)
  (result : fetch_result) (d pre post : list (string * pyval)) (k : string) (v : pyval)
  (s : string) (qs : list Q)
  (Hproc : api_processor (res_api result) = "stocks")
  (Herr : truthy_str (res_error result) = false)
  (Hdata : res_data result = PDict d)
  (Hts : dict_lookup "Time Series (5min)" d = Some (PDict (app pre ((k, v) :: post))))
  (Hpre : Forall2 (fun kv q => exists s, py_getitem (snd kv) "1. open" = Ok (PStr s)
                                         /\ py_float_str s = Some q) pre qs)
  (Hopen : py_getitem v "1. open" = Ok (PStr s))
  (Hbad : py_float_str s = None) :
  process_data py_float_str t_start t_end result
  = (None, Some ("could not convert string to float: " ++ py_repr_str s), t_end - t_start).
Proof.
  destruct (stocks_rows_pre_ok py_float_str pre qs Hpre) as [ys Hys].
  unfold process_data; rewrite Herr, Hproc, Hdata.
  unfold process_body; simpl String.eqb; cbv iota beta.
  unfold py_get; rewrite Hts; cbn [res_bind py_items].
  erewrite (res_map_raise_at _ pre post (k, v) ys
              (ValueError ("could not convert string to float: " ++ py_repr_str s)) Hys);
    [reflexivity|].
  simpl; rewrite Hopen; simpl; rewrite Hbad; reflexivity.
Qed.

Lemma X4_stocks_bad_float_witness :
  process_data decimal_float 0 1
    (mk_result stocks_api
       (PDict [("Time Series (5min)",
                PDict [("09:30", PDict [("1. open", PStr "n/a")])])]) None (Some 5))
  = (None, Some "could not convert string to float: 'n/a'", 1 - 0).
Proof.
  exact (X4_stocks_bad_float decimal_float 0 1
    (mk_result stocks_api
       (PDict [("Time Series (5min)",
                PDict [("09:30", PDict [("1. open", PStr "n/a")])])]) None (Some 5))
    [("Time Series (5min)", PDict [("09:30", PDict [("1. open", PStr "n/a")])])]
    [] [] "09:30" (PDict [("1. open", PStr "n/a")]) "n/a" []
    eq_refl eq_refl eq_refl eq_refl (Forall2_nil _) eq_refl eq_refl).
Defined.

(** ** [fetch_with_latency] and the cache *)

(** X5: a descriptor with a negative latency makes [fetch_with_latency]
    raise [time.sleep]'s [ValueError] instead of returning a result. *)
Theorem X5_negative_latency_raises (net : api_desc -> Q -> http_outcome * Q)
  (oversleep : Q) (api : api_desc) (w : world)
  (Hneg : api_latency api < 0) :
  fetch_with_latency net oversleep api w
  = Raise (ValueError "sleep length must be non-negative").
Proof.
  unfold fetch_with_latency.
  destruct (cached_fetch_api_data net api w) as [r w1].
  unfold sleep.
  assert (H : Qlt_bool (api_latency api) 0 = true) by (apply Qlt_bool_true; exact Hneg).
  rewrite H; reflexivity.
Qed.

Lemma X5_negative_latency_raises_witness :
  fetch_with_latency quick_net 0 (mk_api "Bad" "https://example.org" [] "weather" (-1))
    (mk_world 0 [] [])
  = Raise (ValueError "sleep length must be non-negative").
Proof.
  apply X5_negative_latency_raises; reflexivity.
Defined.

(** X6: after a [fetch_with_latency] call that missed the cache, a second
    call for the same descriptor starting before the entry's stamp (the end
    of the network call) plus 60 returns the same payload and the same error
    (an error is reused, not retried) and issues no network request. *)
Theorem X6_refetch_within_ttl (net : api_desc -> Q -> http_outcome * Q)
  (o1 o2 : Q) (api : api_desc) (w w1 : world) (r1 : fetch_result) (t : Q)
  (Hmiss : cache_lookup api (clock w) (cache w) = None)
  (Hfirst : fetch_with_latency net o1 api w = Ok (r1, w1))
  (Ht : t < clock (snd (cached_fetch_api_data net api w)) + cache_ttl) :
  exists r2 w2,
    fetch_with_latency net o2 api (set_clock w1 t) = Ok (r2, w2)
    /\ res_api r2 = res_api r1 /\ res_data r2 = res_data r1
    /\ res_error r2 = res_error r1
    /\ net_calls w2 = net_calls w1.
Proof.
  unfold fetch_with_latency in Hfirst.
  unfold cached_fetch_api_data in Hfirst, Ht; rewrite Hmiss in Hfirst, Ht.
  destruct (net api (clock w)) as [out dur]; simpl in Ht.
  unfold sleep in Hfirst.
  destruct (Qlt_bool (api_latency api) 0) eqn:Hl; simpl in Hfirst; [discriminate|].
  injection Hfirst as <- <-.
  unfold fetch_with_latency, cached_fetch_api_data, cache_lookup;
    cbn [cache clock set_clock].
  rewrite cache_find_store.
  assert (Hlt : Qlt_bool t (clock w + dur + cache_ttl) = true) by (apply Qlt_bool_true; exact Ht).
  rewrite Hlt; unfold sleep; rewrite Hl; simpl.
  eexists; eexists; repeat split.
Qed.

Lemma X6_refetch_within_ttl_witness :
  exists r2 w2,
    fetch_with_latency quick_net 0 weather_api
      (set_clock (snd (match fetch_with_latency quick_net 0 weather_api (mk_world 0 [] []) with
                       | Ok rw => rw
                       | Raise _ => (fst (cached_fetch_api_data quick_net weather_api (mk_world 0 [] [])),
                                     mk_world 0 [] [])
                       end)) 30)
    = Ok (r2, w2)
    /\ res_api r2 = res_api (fst (match fetch_with_latency quick_net 0 weather_api (mk_world 0 [] []) with
                                  | Ok rw => rw
                                  | Raise _ => (fst (cached_fetch_api_data quick_net weather_api (mk_world 0 [] [])),
                                                mk_world 0 [] [])
                                  end))
    /\ res_data r2 = res_data (fst (match fetch_with_latency quick_net 0 weather_api (mk_world 0 [] []) with
                                  | Ok rw => rw
                                  | Raise _ => (fst (cached_fetch_api_data quick_net weather_api (mk_world 0 [] [])),
                                                mk_world 0 [] [])
                                  end))
    /\ res_error r2 = res_error (fst (match fetch_with_latency quick_net 0 weather_api (mk_world 0 [] []) with
                                  | Ok rw => rw
                                  | Raise _ => (fst (cached_fetch_api_data quick_net weather_api (mk_world 0 [] [])),
                                                mk_world 0 [] [])
                                  end))
    /\ net_calls w2 = net_calls (snd (match fetch_with_latency quick_net 0 weather_api (mk_world 0 [] []) with
                                  | Ok rw => rw
                                  | Raise _ => (fst (cached_fetch_api_data quick_net weather_api (mk_world 0 [] [])),
                                                mk_world 0 [] [])
                                  end)).
Proof.
  apply (X6_refetch_within_ttl quick_net 0 0 weather_api (mk_world 0 [] [])).
  - reflexivity.
  - reflexivity.
  - reflexivity.
Defined.

(** ** The loop of [main] *)

Lemma filter_split_perm {A} (p : A -> bool) (l : list A) :
  Permutation (app (filter p l) (filter (fun x => negb (p x)) l)) l.
Proof.
  induction l as [|x l IH]; simpl; [reflexivity|].
  destruct (p x); simpl.
  - constructor; exact IH.
  - rewrite <- Permutation_middle; constructor; exact IH.
Qed.

(** X7: whatever the iteration order of the set of already finished
    futures, the loop of [main] renders every submitted future exactly
    once. *)
Theorem X7_every_slot_once (set_order : list future -> list future) (start : Q)
  (fs : list future) (Hset : forall l, Permutation (set_order l) l) :
  Permutation (as_completed set_order start fs) fs.
Proof.
  unfold as_completed; cbv zeta.
  rewrite (Hset _), (sort_by_time_perm _).
  exact (filter_split_perm (fun f => Qle_bool (snd f) start) fs).
Qed.

Lemma X7_every_slot_once_witness :
  Permutation (as_completed (@rev future) 4 [(0%nat, 6); (1%nat, 2); (2%nat, 3)])
              [(0%nat, 6); (1%nat, 2); (2%nat, 3)].
Proof.
  apply X7_every_slot_once; intros l; apply Permutation_sym, Permutation_rev.
Defined.

(** X8: when the request of a slot fails in transport with a non-empty
    message [m] (and the cache holds no live entry), the slot shows
    "API Error: m" and the single metric "API Time", which is at least the
    descriptor's latency. *)
Theorem X8_slot_transport_error (net : api_desc -> Q -> http_outcome * Q)
  (oversleep : Q) (py_float_str : string -> option Q) (t_start t_end : Q)
  (api : api_desc) (w : world) (m : string) (dur : Q)
  (Hmiss : cache_lookup api (clock w) (cache w) = None)
  (Hnet : net api (clock w) = (Transport m, dur))
  (Hm : m <> "") (Hdur : 0 <= dur) (Hover : 0 <= oversleep)
  (Hlat : 0 <= api_latency api) :
  exists api_time w',
    main_slot net oversleep py_float_str t_start t_end api w
    = Ok ([Subheader (api_name api); ErrorBox ("API Error: " ++ m); Metric "API Time" api_time], w')
    /\ api_latency api <= api_time.
Proof.
  unfold main_slot, fetch_with_latency, cached_fetch_api_data.
  rewrite Hmiss, Hnet; unfold sleep.
  assert (Hs : Qlt_bool (api_latency api) 0 = false) by (apply Qlt_bool_false; exact Hlat).
  rewrite Hs; cbn [res_bind fst snd].
  unfold render_slot; cbn [res_error res_api res_api_time fetch_api_data].
  unfold truthy_str.
  destruct (String.eqb m "") eqn:E; [apply String.eqb_eq in E; contradiction|].
  simpl; rewrite E; simpl.
  eexists; eexists; split; [reflexivity|].
  simpl clock.
  apply (Qplus_le_l _ _ (clock w)).
  setoid_replace (clock w + dur + api_latency api + oversleep - clock w + clock w)
    with (clock w + api_latency api + (dur + oversleep)) by ring.
  setoid_replace (api_latency api + clock w) with (clock w + api_latency api + 0) by ring.
  apply Qplus_le_compat; [apply Qle_refl|].
  setoid_replace 0 with (0 + 0) by ring; apply Qplus_le_compat; assumption.
Qed.

Lemma X8_slot_transport_error_witness :
  exists api_time w',
    main_slot (fun _ _ => (Transport "Connection refused", 1)) 0 decimal_float 7 8
      weather_api (mk_world 0 [] [])
    = Ok ([Subheader "Weather API"; ErrorBox ("API Error: " ++ "Connection refused");
           Metric "API Time" api_time], w')
    /\ api_latency weather_api <= api_time.
Proof.
  apply (X8_slot_transport_error (fun _ _ => (Transport "Connection refused", 1)) 0
           decimal_float 7 8 weather_api (mk_world 0 [] []) "Connection refused" 1);
    try reflexivity; try discriminate.
Defined.

(** X9: when the request of a weather or crypto slot fails with an empty
    message, the empty error is falsy: the slot is processed anyway and
    shows the processing error of indexing the [None] payload, with both
    timing metrics. *)
Theorem X9_slot_empty_error (net : api_desc -> Q -> http_outcome * Q)
  (oversleep : Q) (py_float_str : string -> option Q) (t_start t_end : Q)
  (api : api_desc) (w : world) (dur : Q)
  (Hproc : api_processor api = "weather" \/ api_processor api = "crypto")
  (Hmiss : cache_lookup api (clock w) (cache w) = None)
  (Hnet : net api (clock w) = (Transport "", dur))
  (Hlat : 0 <= api_latency api) :
  exists api_time w',
    main_slot net oversleep py_float_str t_start t_end api w
    = Ok ([Subheader (api_name api);
           ErrorBox "Processing Error: 'NoneType' object is not subscriptable";
           Metric "API Time (incl. latency)" api_time;
           Metric "Processing Time" (t_end - t_start)], w').
Proof.
  unfold main_slot, fetch_with_latency, cached_fetch_api_data.
  rewrite Hmiss, Hnet; unfold sleep.
  assert (Hs : Qlt_bool (api_latency api) 0 = false) by (apply Qlt_bool_false; exact Hlat).
  rewrite Hs; cbn [res_bind fst snd].
  unfold render_slot, process_data, process_body; cbn [res_error res_api res_data res_api_time fetch_api_data].
  destruct Hproc as [Hp|Hp]; rewrite Hp; simpl; eexists; eexists; reflexivity.
Qed.

Lemma X9_slot_empty_error_witness :
  exists api_time w',
    main_slot (fun _ _ => (Transport "", 1)) 0 decimal_float 7 8 crypto_api (mk_world 0 [] [])
    = Ok ([Subheader "Crypto Prices";
           ErrorBox "Processing Error: 'NoneType' object is not subscriptable";
           Metric "API Time (incl. latency)" api_time;
           Metric "Processing Time" (8 - 7)], w').
Proof.
  apply (X9_slot_empty_error (fun _ _ => (Transport "", 1)) 0 decimal_float 7 8 crypto_api
           (mk_world 0 [] []) 1); try reflexivity.
  - right; reflexivity.
  - discriminate.
Defined.
